(** * A shallow embedding of [a.py]: the TikTok "IP lookup" script

    The script validates an identifier, formats it into a URL, hands the
    URL to [socket.gethostbyname], and prints the outcome.  The embedding
    follows the script statement by statement:

    - Python exceptions are values of [exn] (class, [errno] attribute,
      [str()] rendering, and the place they were raised);
    - the interpreter state the script can touch is a [World]: the host's
      name-resolution service (an oracle), the log of host names handed to
      it, and the text written to standard output;
    - statements are computations in a state-and-exception monad [M]. *)

From Stdlib Require Import String List Bool ZArith Lia.
Import ListNotations.
Local Open Scope string_scope.

(** ** Python exceptions *)

Module Py.

(** The exception classes the script names or can meet, with the part of
    the built-in hierarchy that lies between them:
    [UnicodeError <: ValueError <: Exception] and
    [socket.gaierror, socket.herror <: OSError <: Exception]. *)
Inductive exn_class : Type :=
  | Exception
  | ValueError
  | UnicodeError
  | OSError
  | GaiError      (* socket.gaierror *)
  | HError.       (* socket.herror *)

Definition exn_class_eqb (c d : exn_class) : bool :=
  match c, d with
  | Exception, Exception | ValueError, ValueError
  | UnicodeError, UnicodeError | OSError, OSError
  | GaiError, GaiError | HError, HError => true
  | _, _ => false
  end.

(** Method resolution order of a class (itself first). *)
Definition mro (c : exn_class) : list exn_class :=
  match c with
  | Exception    => [Exception]
  | ValueError   => [ValueError; Exception]
  | UnicodeError => [UnicodeError; ValueError; Exception]
  | OSError      => [OSError; Exception]
  | GaiError     => [GaiError; OSError; Exception]
  | HError       => [HError; OSError; Exception]
  end.

Definition issubclass (c d : exn_class) : bool :=
  existsb (exn_class_eqb d) (mro c).

(** Where an exception object was created and raised: the innermost
    frame of its traceback.  The script has two [raise] statements; every
    other exception comes out of the socket module. *)
Inductive raise_site : Type :=
  | Line24          (* raise ValueError("Invalid TikTok username provided.") *)
  | Line31          (* raise socket.gaierror(f"Error getting IP address ...") *)
  | InGethostbyname (* raised inside socket.gethostbyname *).

(** An exception object, by the attributes the script and the [except]
    clauses read: its class, [errno], [str()] and where it was raised.
    The implicit chaining Python adds to an exception raised inside an
    [except] block ([__context__]) is not part of the record; the
    theorems below speak about these four attributes only. *)
Record exn : Type := mk_exn {
  exn_cls   : exn_class;     (* type(e) *)
  exn_errno : option Z;      (* e.errno; None when built from one message *)
  exn_str   : string;        (* str(e), what an f-string field {e} shows *)
  exn_site  : raise_site
}.

(** [C("msg")] for an exception class [C] called with one string: the
    message is the only argument, [errno] stays [None], [str(e)] is the
    message. *)
Definition new_exn (c : exn_class) (msg : string) (at_ : raise_site) : exn :=
  mk_exn c None msg at_.

Definition isinstance (e : exn) (c : exn_class) : bool :=
  issubclass (exn_cls e) c.

(** An [except (C1, ..., Cn)] clause matches when the exception is an
    instance of one of the listed classes. *)
Definition matches (e : exn) (handled : list exn_class) : bool :=
  existsb (isinstance e) handled.

(** Truth value of a [str]: only the empty string is false, so
    [not s] is true exactly for [""]. *)
Definition py_not (s : string) : bool :=
  match s with
  | EmptyString => true
  | String _ _ => false
  end.

End Py.
Import Py.

(** ** The world and the monad *)

(** What one call of the host's name resolution does: it yields an
    address, or it raises.  The service is outside the script, so nothing
    is fixed about which exception it raises. *)
Inductive lookup_result : Type :=
  | Resolved (address : string)
  | Failed (cls : exn_class) (errno : option Z) (text : string).

Record World : Type := mk_World {
  resolver : string -> lookup_result;  (* the host's resolution service *)
  lookups  : list string;              (* names handed to it, oldest first *)
  stdout   : string                    (* everything written so far *)
}.

Inductive outcome (A : Type) : Type :=
  | Returned (a : A)
  | Raised (e : exn).
Arguments Returned {A} a.
Arguments Raised {A} e.

Definition M (A : Type) : Type := World -> outcome A * World.

Definition ret {A} (a : A) : M A := fun w => (Returned a, w).

Definition bind {A B} (m : M A) (k : A -> M B) : M B :=
  fun w =>
    match m w with
    | (Returned a, w') => k a w'
    | (Raised e, w') => (Raised e, w')
    end.

Definition raise {A} (e : exn) : M A := fun w => (Raised e, w).

(** [try: body  except (handled) as e: handler e].  An exception that
    matches no listed class passes through untouched. *)
Definition try_except {A} (body : M A) (handled : list exn_class)
    (handler : exn -> M A) : M A :=
  fun w =>
    match body w with
    | (Returned a, w') => (Returned a, w')
    | (Raised e, w') =>
        if matches e handled then handler e w' else (Raised e, w')
    end.

Notation "x <- m ;; k" := (bind m (fun x => k))
  (at level 61, m at next level, right associativity).

(** [socket.gethostbyname(name)]: one request to the host's service,
    recorded in the log; a failure surfaces as an exception raised inside
    the socket module. *)
Definition socket_gethostbyname (name : string) : M string :=
  fun w =>
    let w' := mk_World (resolver w) (lookups w ++ [name]) (stdout w) in
    match resolver w name with
    | Resolved address => (Returned address, w')
    | Failed c n t => (Raised (mk_exn c n t InGethostbyname), w')
    end.

(** [print(s)]: the text and a newline go to standard output. *)
Definition newline : string := String (Ascii.ascii_of_nat 10) EmptyString.

Definition print (s : string) : M unit :=
  fun w =>
    (Returned tt, mk_World (resolver w) (lookups w) (stdout w ++ s ++ newline)).

(** ** The script *)

Definition get_ip_from_tiktok_username (username : string) : M string :=
  if py_not username then
    raise (new_exn ValueError "Invalid TikTok username provided." Line24)
  else
    try_except
      (let url := "https://www.tiktok.com/@" ++ username in
       ip_address <- socket_gethostbyname url ;;
       ret ip_address)
      [GaiError]
      (fun e =>
         raise (new_exn GaiError
                  ("Error getting IP address for " ++ username ++ ": "
                     ++ exn_str e)
                  Line31)).

(** The module-level [try] statement, with the literal it assigns to
    [tiktok_username] as a parameter. *)
Definition driver (tiktok_username : string) : M unit :=
  try_except
    (ip_address <- get_ip_from_tiktok_username tiktok_username ;;
     print ("The IP address for TikTok username '" ++ tiktok_username
              ++ "' is: " ++ ip_address))
    [ValueError; GaiError]
    (fun e => print ("Error: " ++ exn_str e)).

Definition tiktok_username : string := "80alaajutt".

(** Running the file as a program, on a standard output that accepts
    what is written to it: the interpreter exits with status 0 when the
    module body finishes, and with status 1 (after a traceback on standard
    error, nothing on standard output) when an exception leaves it. *)
Definition exit_status {A} (o : outcome A) : Z :=
  match o with
  | Returned _ => 0%Z
  | Raised _ => 1%Z
  end.

Definition run_script (w : World) : Z * World :=
  let (o, w') := driver tiktok_username w in (exit_status o, w').

(** ** Vocabulary of the specification *)

(** The two error kinds of the function, as the objects its two [raise]
    statements build. *)
Definition invalid_input_error : exn :=
  new_exn ValueError "Invalid TikTok username provided." Line24.

Definition resolution_error (username cause : string) : exn :=
  new_exn GaiError
    ("Error getting IP address for " ++ username ++ ": " ++ cause) Line31.

(** The string the function builds for an identifier (its local [url]). *)
Definition profile_url (username : string) : string :=
  "https://www.tiktok.com/@" ++ username.

(** [needle] occurs somewhere inside [hay]. *)
Definition contains (needle hay : string) : Prop :=
  exists before after, hay = before ++ needle ++ after.

(** The state after one more lookup of [name], everything else as before. *)
Definition looked_up (name : string) (w : World) : World :=
  mk_World (resolver w) (lookups w ++ [name]) (stdout w).

(** The state after one more printed line. *)
Definition printed (line : string) (w : World) : World :=
  mk_World (resolver w) (lookups w) (stdout w ++ line ++ newline).

(** The resolver kept its documented promise at this answer: an address,
    when there is one, is not the empty string. *)
Definition address_nonempty (r : lookup_result) : bool :=
  match r with
  | Resolved address => negb (py_not address)
  | Failed _ _ _ => true
  end.

(** The function ended in a way the module-level [try] deals with: it
    returned, or it raised an instance of a class the [except] clause
    lists. *)
Definition dealt_with {A} (o : outcome A) : bool :=
  match o with
  | Returned _ => true
  | Raised e => matches e [ValueError; GaiError]
  end.

(** The line the driver is meant to print for an outcome of the function. *)
Definition report_line (id : string) (o : outcome string) : string :=
  match o with
  | Returned address =>
      "The IP address for TikTok username '" ++ id ++ "' is: " ++ address
  | Raised e => "Error: " ++ exn_str e
  end.

(** ** Sample worlds *)

Definition fresh (r : string -> lookup_result) : World := mk_World r [] "".

(** What a stock resolver answers to a URL: no such host. *)
Definition no_such_host : World :=
  fresh (fun _ => Failed GaiError (Some (-2)%Z)
                    "[Errno -2] Name or service not known").

(** A resolver that answers every name with one address. *)
Definition wildcard_dns : World :=
  fresh (fun _ => Resolved "203.0.113.7").

(** CPython encodes the host name with the [idna] codec before it asks
    the resolver; a label that is empty or longer than 63 characters makes
    the codec raise [UnicodeError]. *)
Definition idna_rejects : World :=
  fresh (fun _ => Failed UnicodeError None
                    "encoding with 'idna' codec failed (UnicodeError: label empty or too long)").

(** The same resolver, met later in a session: names were looked up and
    text was printed before. *)
Definition no_such_host_later : World :=
  mk_World (resolver no_such_host) ["example.org"] ("earlier output" ++ newline).

(** [getaddrinfo] reporting a system error ([EAI_SYSTEM]): CPython raises
    a plain [OSError] carrying the C [errno]. *)
Definition resolver_system_error : World :=
  fresh (fun _ => Failed OSError (Some 24%Z)
                    "[Errno 24] Too many open files").

(** A resolver that cannot reach its name servers. *)
Definition temporary_failure : World :=
  fresh (fun _ => Failed GaiError (Some (-3)%Z)
                    "[Errno -3] Temporary failure in name resolution").

(** ** Lines of output *)

(** Number of line breaks in a text. *)
Fixpoint line_breaks (s : string) : nat :=
  match s with
  | EmptyString => 0
  | String c s' =>
      (if Ascii.eqb c (Ascii.ascii_of_nat 10) then 1 else 0) + line_breaks s'
  end.

(** ** Vocabulary for the driver's handler *)

(** The classes whose instances the module-level clause
    [except (ValueError, socket.gaierror)] catches. *)
Definition reported_class (c : exn_class) : bool :=
  issubclass c ValueError || issubclass c GaiError.

(** The resolver's answer leads to a printed line: an address, or a
    failure of a class the driver catches (directly, or after the function
    wrapped it). *)
Definition answer_reported (r : lookup_result) : bool :=
  match r with
  | Resolved _ => true
  | Failed c _ _ => reported_class c
  end.

(** ** Basic facts *)

Section Strings.

Lemma py_not_false (s : string) : py_not s = false <-> s <> "".
Proof.
  destruct s as [|c s]; simpl; split; intro H;
    solve [ discriminate | reflexivity | exfalso; apply H; reflexivity ].
Qed.

Lemma py_not_true (s : string) : py_not s = true <-> s = "".
Proof.
  destruct s; simpl; split; intro H; solve [ reflexivity | discriminate ].
Qed.

Lemma append_length (s t : string) :
  String.length (s ++ t) = String.length s + String.length t.
Proof.
  induction s as [|c s IH]; simpl; [ reflexivity | now rewrite IH ].
Qed.

Lemma append_assoc (s t u : string) : (s ++ t) ++ u = s ++ t ++ u.
Proof.
  induction s as [|c s IH]; simpl; [ reflexivity | now rewrite IH ].
Qed.

Lemma append_empty_r (s : string) : s ++ "" = s.
Proof.
  induction s as [|c s IH]; simpl; [ reflexivity | now rewrite IH ].
Qed.

(** A string that got a non-empty prefix is a different string. *)
Lemma prefixed_differs (p s : string) : p <> "" -> p ++ s <> s.
Proof.
  intros Hp Heq.
  assert (Hlen : String.length (p ++ s) = String.length s) by now rewrite Heq.
  rewrite append_length in Hlen.
  destruct p as [|c p]; [ now apply Hp | simpl in Hlen; lia ].
Qed.

Lemma contains_middle (a x b : string) : contains x (a ++ x ++ b).
Proof. exists a, b; reflexivity. Qed.

Lemma line_breaks_app (s t : string) :
  line_breaks (s ++ t) = line_breaks s + line_breaks t.
Proof.
  induction s as [|c s IH]; simpl; [ reflexivity | rewrite IH; lia ].
Qed.

(** What [print] writes for a text without line breaks is one line. *)
Lemma one_line_written (s : string) :
  line_breaks s = 0 -> line_breaks (s ++ newline) = 1.
Proof. intro H. rewrite line_breaks_app, H. reflexivity. Qed.

End Strings.

Section Classes.

Lemma issubclass_refl (c : exn_class) : issubclass c c = true.
Proof. destruct c; reflexivity. Qed.

(** [socket.gaierror] has no subclass here: being an instance is being
    exactly of that class. *)
Lemma issubclass_gaierror (c : exn_class) :
  issubclass c GaiError = true <-> c = GaiError.
Proof. destruct c; simpl; split; intro H; solve [ reflexivity | discriminate ]. Qed.

(** The clause [except socket.gaierror] looks at nothing but the class. *)
Lemma matches_gaierror (e : exn) :
  matches e [GaiError] = issubclass (exn_cls e) GaiError.
Proof. unfold matches, isinstance; simpl; apply orb_false_r. Qed.

Lemma matches_driver (e : exn) :
  matches e [ValueError; GaiError]
  = issubclass (exn_cls e) ValueError || issubclass (exn_cls e) GaiError.
Proof. unfold matches, isinstance; simpl; now rewrite orb_false_r. Qed.

End Classes.

(** The monad laws, pointwise in the world, and how [try_except] treats
    the three ways its body can end. *)
Section Laws.

Context {A B C : Type}.

Lemma bind_ret_l (a : A) (k : A -> M B) (w : World) :
  bind (ret a) k w = k a w.
Proof. reflexivity. Qed.

Lemma bind_ret_r (m : M A) (w : World) : bind m ret w = m w.
Proof. unfold bind, ret. destruct (m w) as [[a | e] w']; reflexivity. Qed.

Lemma bind_assoc (m : M A) (k : A -> M B) (h : B -> M C) (w : World) :
  bind (bind m k) h w = bind m (fun a => bind (k a) h) w.
Proof. unfold bind. destruct (m w) as [[a | e] w']; reflexivity. Qed.

Lemma bind_raise (e : exn) (k : A -> M B) (w : World) :
  bind (raise e) k w = (Raised e, w).
Proof. reflexivity. Qed.

Lemma try_except_returned (m : M A) (cs : list exn_class) (h : exn -> M A)
    (w w' : World) (a : A) :
  m w = (Returned a, w') -> try_except m cs h w = (Returned a, w').
Proof. unfold try_except. now intros ->. Qed.

Lemma try_except_listed (m : M A) (cs : list exn_class) (h : exn -> M A)
    (w w' : World) (e : exn) :
  m w = (Raised e, w') -> matches e cs = true ->
  try_except m cs h w = h e w'.
Proof. unfold try_except. now intros -> ->. Qed.

Lemma try_except_unlisted (m : M A) (cs : list exn_class) (h : exn -> M A)
    (w w' : World) (e : exn) :
  m w = (Raised e, w') -> matches e cs = false ->
  try_except m cs h w = (Raised e, w').
Proof. unfold try_except. now intros -> ->. Qed.

End Laws.

(** ** How the function runs *)

Section Runs.

Variable username : string.
Variable w : World.

(** On the empty identifier the function stops at the guard. *)
Lemma run_empty :
  username = "" ->
  get_ip_from_tiktok_username username w = (Raised invalid_input_error, w).
Proof. intros ->; reflexivity. Qed.

(** On any other identifier it is one lookup of the URL, whose failure is
    re-raised in wrapped form when, and only when, it is a
    [socket.gaierror]. *)
Lemma run_nonempty :
  username <> "" ->
  get_ip_from_tiktok_username username w =
    match resolver w (profile_url username) with
    | Resolved address => (Returned address, looked_up (profile_url username) w)
    | Failed c n t =>
        if issubclass c GaiError
        then (Raised (resolution_error username t),
              looked_up (profile_url username) w)
        else (Raised (mk_exn c n t InGethostbyname),
              looked_up (profile_url username) w)
    end.
Proof.
  intro Hne. apply py_not_false in Hne.
  unfold get_ip_from_tiktok_username. rewrite Hne.
  unfold try_except, bind, socket_gethostbyname, ret, raise, looked_up.
  destruct (resolver w _) as [address | c n t]; [ reflexivity | ].
  rewrite matches_gaierror; simpl exn_cls.
  destruct (issubclass c GaiError); reflexivity.
Qed.

(** Whatever happens, the function writes nothing and leaves the resolver
    as it was. *)
Lemma run_keeps_stdout :
  stdout (snd (get_ip_from_tiktok_username username w)) = stdout w.
Proof.
  destruct (py_not username) eqn:E.
  - apply py_not_true in E. now rewrite (run_empty E).
  - apply py_not_false in E. rewrite (run_nonempty E).
    destruct (resolver w _) as [a | c n t];
      [ | destruct (issubclass c GaiError) ]; reflexivity.
Qed.

(** The driver, in terms of the function's outcome. *)
Lemma run_driver :
  driver username w =
    match get_ip_from_tiktok_username username w with
    | (Returned address, w') =>
        (Returned tt, printed (report_line username (Returned address)) w')
    | (Raised e, w') =>
        if matches e [ValueError; GaiError]
        then (Returned tt, printed (report_line username (Raised e)) w')
        else (Raised e, w')
    end.
Proof.
  unfold driver, try_except, bind.
  destruct (get_ip_from_tiktok_username username w) as [[address | e] w'];
    reflexivity.
Qed.

End Runs.

(** ** The script on sample worlds *)

Example run_unresolvable :
  get_ip_from_tiktok_username "80alaajutt" no_such_host =
    (Raised (resolution_error "80alaajutt"
               "[Errno -2] Name or service not known"),
     looked_up "https://www.tiktok.com/@80alaajutt" no_such_host).
Proof. reflexivity. Qed.

Example run_resolvable :
  get_ip_from_tiktok_username "80alaajutt" wildcard_dns =
    (Returned "203.0.113.7",
     looked_up "https://www.tiktok.com/@80alaajutt" wildcard_dns).
Proof. reflexivity. Qed.

Example script_unresolvable :
  fst (run_script no_such_host) = 0%Z /\
  stdout (snd (run_script no_such_host)) =
    "Error: Error getting IP address for 80alaajutt: [Errno -2] Name or service not known"
      ++ newline.
Proof. split; reflexivity. Qed.

Example script_resolvable :
  fst (run_script wildcard_dns) = 0%Z /\
  stdout (snd (run_script wildcard_dns)) =
    "The IP address for TikTok username '80alaajutt' is: 203.0.113.7"
      ++ newline.
Proof. split; reflexivity. Qed.

(** End-to-end scenario 1 of the specification: the driver's [try]
    statement run on the empty identifier. *)
Example scenario_empty_identifier (w : World) :
  driver "" w = (Returned tt, printed "Error: Invalid TikTok username provided." w).
Proof. reflexivity. Qed.

(** ** The lookup target *)

(** C1.  For every non-empty identifier the resolver is handed exactly
    the string "https://www.tiktok.com/@" followed by the identifier: a
    full URL, scheme and path included, not a bare host name. *)
Theorem lookup_target_is_url (username : string) (w : World) :
  username <> "" ->
  lookups (snd (get_ip_from_tiktok_username username w))
    = (lookups w ++ [("https://www.tiktok.com/@" ++ username)%string])%list
  /\ prefix "https://" ("https://www.tiktok.com/@" ++ username) = true.
Proof.
  intro Hne. split; [ | reflexivity ].
  rewrite (run_nonempty _ w Hne). fold (profile_url username).
  destruct (resolver w _) as [a | c n t];
    [ | destruct (issubclass c GaiError) ]; reflexivity.
Qed.

Lemma lookup_target_is_url_witness :
  lookups (snd (get_ip_from_tiktok_username "80alaajutt" no_such_host))
    = ["https://www.tiktok.com/@80alaajutt"].
Proof.
  exact (proj1 (lookup_target_is_url "80alaajutt" no_such_host
                  ltac:(discriminate))).
Defined.

(** ** The guard *)

(** C2.  On the empty identifier the function raises
    [ValueError("Invalid TikTok username provided.")] and the resolver is
    not called: the lookup log, like the rest of the world, is as it was
    before the call. *)
Theorem empty_identifier_rejected (w : World) :
  fst (get_ip_from_tiktok_username "" w) = Raised invalid_input_error
  /\ exn_cls invalid_input_error = ValueError
  /\ exn_str invalid_input_error = "Invalid TikTok username provided."
  /\ lookups (snd (get_ip_from_tiktok_username "" w)) = lookups w
  /\ snd (get_ip_from_tiktok_username "" w) = w.
Proof. repeat split. Qed.

(** ** The wrapped resolution error *)

(** C3.  For every non-empty identifier, when the lookup fails with a
    [socket.gaierror], the function raises a [socket.gaierror] whose
    message is "Error getting IP address for <id>: <cause>"; the message
    contains both the identifier and the text of the underlying error. *)
Theorem resolution_failure_is_wrapped
    (username : string) (w : World) (errno : option Z) (cause : string) :
  username <> "" ->
  resolver w ("https://www.tiktok.com/@" ++ username)
    = Failed GaiError errno cause ->
  exists e,
    fst (get_ip_from_tiktok_username username w) = Raised e
    /\ exn_cls e = GaiError
    /\ exn_str e = "Error getting IP address for " ++ username ++ ": " ++ cause
    /\ contains username (exn_str e)
    /\ contains cause (exn_str e).
Proof.
  intros Hne Hfail.
  exists (resolution_error username cause).
  rewrite (run_nonempty _ w Hne). unfold profile_url. rewrite Hfail.
  rewrite issubclass_refl. cbn [fst].
  unfold resolution_error, new_exn. cbn [exn_cls exn_str].
  repeat split.
  - apply contains_middle.
  - exists ("Error getting IP address for " ++ username ++ ": "), "".
    now rewrite append_empty_r, !append_assoc.
Qed.

Lemma resolution_failure_is_wrapped_witness :
  exists e,
    fst (get_ip_from_tiktok_username "80alaajutt" no_such_host) = Raised e
    /\ exn_cls e = GaiError
    /\ exn_str e = "Error getting IP address for 80alaajutt: [Errno -2] Name or service not known"
    /\ contains "80alaajutt" (exn_str e)
    /\ contains "[Errno -2] Name or service not known" (exn_str e).
Proof.
  exact (resolution_failure_is_wrapped "80alaajutt" no_such_host _ _
           ltac:(discriminate) eq_refl).
Defined.

(** ** One lookup, then a result or an error *)

(** C4, as the specification words it, fails: a resolver error that is
    not a [socket.gaierror] is neither an address nor the resolution
    error.  Here the identifier has an empty label ("tik..tok"), the
    [idna] codec refuses the name, and the [UnicodeError] leaves the
    function as it came. *)
Lemma unicode_error_is_not_wrapped :
  let r := fst (get_ip_from_tiktok_username "tik..tok" idna_rejects) in
  "tik..tok" <> ""
  /\ r = Raised (mk_exn UnicodeError None
                   "encoding with 'idna' codec failed (UnicodeError: label empty or too long)"
                   InGethostbyname)
  /\ ~ ((exists address, r = Returned address /\ address <> "")
        \/ (exists e, r = Raised e /\ isinstance e GaiError = true)).
Proof.
  cbv zeta. split; [ discriminate | ]. split; [ reflexivity | ].
  intros [[address [H _]] | [e [H Hinst]]].
  - discriminate H.
  - injection H as <-. discriminate Hinst.
Qed.

(** C4, amended.  For every non-empty identifier, and a resolver whose
    addresses are non-empty, the function makes exactly one lookup, of the
    constructed string, and then: returns the resolver's address
    unchanged (a non-empty string); or, when the resolver failed with
    [socket.gaierror], raises the resolution error; or, when the resolver
    failed with anything else, lets that exception through unchanged. *)
Theorem one_lookup_then_address_or_error (username : string) (w : World) :
  username <> "" ->
  address_nonempty (resolver w ("https://www.tiktok.com/@" ++ username)) = true ->
  let r := get_ip_from_tiktok_username username w in
  snd r = looked_up ("https://www.tiktok.com/@" ++ username) w
  /\ lookups (snd r)
       = (lookups w ++ [("https://www.tiktok.com/@" ++ username)%string])%list
  /\ ((exists address,
         resolver w ("https://www.tiktok.com/@" ++ username) = Resolved address
         /\ fst r = Returned address /\ address <> "")
      \/ (exists errno cause,
            resolver w ("https://www.tiktok.com/@" ++ username)
              = Failed GaiError errno cause
            /\ fst r = Raised (resolution_error username cause))
      \/ (exists c errno text,
            resolver w ("https://www.tiktok.com/@" ++ username)
              = Failed c errno text
            /\ c <> GaiError
            /\ fst r = Raised (mk_exn c errno text InGethostbyname))).
Proof.
  intros Hne Haddr r. subst r.
  rewrite (run_nonempty _ w Hne). unfold profile_url.
  destruct (resolver w _) as [address | c errno text].
  - repeat split. left. exists address. repeat split.
    apply py_not_false. now apply negb_true_iff in Haddr.
  - destruct (issubclass c GaiError) eqn:E.
    + apply issubclass_gaierror in E. subst c.
      repeat split. right; left. now exists errno, text.
    + repeat split. right; right. exists c, errno, text. repeat split.
      intros ->. discriminate E.
Qed.

Lemma one_lookup_then_address_or_error_witness :
  let r := get_ip_from_tiktok_username "80alaajutt" wildcard_dns in
  snd r = looked_up "https://www.tiktok.com/@80alaajutt" wildcard_dns
  /\ lookups (snd r) = ["https://www.tiktok.com/@80alaajutt"]
  /\ ((exists address,
         Resolved "203.0.113.7" = Resolved address
         /\ fst r = Returned address /\ address <> "")
      \/ (exists errno cause,
            Resolved "203.0.113.7" = Failed GaiError errno cause
            /\ fst r = Raised (resolution_error "80alaajutt" cause))
      \/ (exists c errno text,
            Resolved "203.0.113.7" = Failed c errno text
            /\ c <> GaiError
            /\ fst r = Raised (mk_exn c errno text InGethostbyname))).
Proof.
  exact (one_lookup_then_address_or_error "80alaajutt" wildcard_dns
           ltac:(discriminate) eq_refl).
Defined.

(** ** What the driver prints *)

(** C5, as the specification words it, fails: there are runs with no
    line on standard output.  When the resolver raises a plain [OSError],
    neither [except] clause matches, the exception leaves the module, and
    the script ends with status 1 having printed nothing. *)
Lemma uncaught_error_prints_nothing :
  stdout (snd (run_script resolver_system_error))
    = stdout resolver_system_error
  /\ fst (run_script resolver_system_error) = 1%Z
  /\ ~ (exists line,
          stdout (snd (run_script resolver_system_error))
            = stdout resolver_system_error ++ line ++ newline).
Proof.
  split; [ reflexivity | ]. split; [ reflexivity | ].
  intros [line H]. destruct line; discriminate H.
Qed.

(** C5, amended.  On every run in which the function returns, or raises
    an error of a kind the driver's [except] clause lists ([ValueError] or
    [socket.gaierror], subclasses included), the driver finishes normally
    and appends to standard output exactly the text
    "The IP address for TikTok username '<id>' is: <address>" (on success)
    or "Error: <message>" (on failure) followed by one newline; when that
    text holds no line break, the output has grown by exactly one line.
    On every run in which the function raises an exception of any other
    kind, the exception is not caught: it leaves the driver and nothing is
    written to standard output. *)
Theorem driver_prints_one_line (id : string) (w : World) :
  (dealt_with (fst (get_ip_from_tiktok_username id w)) = true ->
     fst (driver id w) = Returned tt
     /\ stdout (snd (driver id w))
          = stdout w
              ++ report_line id (fst (get_ip_from_tiktok_username id w))
              ++ newline
     /\ (line_breaks
           (report_line id (fst (get_ip_from_tiktok_username id w))) = 0 ->
         line_breaks (stdout (snd (driver id w)))
           = line_breaks (stdout w) + 1))
  /\ (dealt_with (fst (get_ip_from_tiktok_username id w)) = false ->
        exists e,
          fst (get_ip_from_tiktok_username id w) = Raised e
          /\ fst (driver id w) = Raised e
          /\ stdout (snd (driver id w)) = stdout w).
Proof.
  rewrite run_driver.
  rewrite <- (run_keeps_stdout id w).
  destruct (get_ip_from_tiktok_username id w) as [[address | e] w'];
    cbn [fst snd dealt_with].
  - split; [ intros _ | discriminate ].
    split; [ reflexivity | ]. split; [ reflexivity | ].
    intro Hline. cbn [fst snd printed stdout].
    rewrite line_breaks_app, (one_line_written _ Hline). reflexivity.
  - destruct (matches e [ValueError; GaiError]); split;
      try discriminate; intros _.
    + split; [ reflexivity | ]. split; [ reflexivity | ].
      intro Hline. cbn [fst snd printed stdout].
      rewrite line_breaks_app, (one_line_written _ Hline). reflexivity.
    + exists e. repeat split.
Qed.

Lemma driver_prints_one_line_witness :
  fst (driver "80alaajutt" no_such_host) = Returned tt
  /\ stdout (snd (driver "80alaajutt" no_such_host))
       = "Error: Error getting IP address for 80alaajutt: [Errno -2] Name or service not known"
           ++ newline
  /\ line_breaks (stdout (snd (driver "80alaajutt" no_such_host))) = 1.
Proof.
  destruct (proj1 (driver_prints_one_line "80alaajutt" no_such_host) eq_refl)
    as [Hret [Hout Hline]].
  exact (conj Hret (conj Hout (Hline eq_refl))).
Defined.

(** C6.  Both error kinds of the function, the invalid-input error (a
    [ValueError]) and the resolution error (a [socket.gaierror]), are
    caught by the module-level [try]: the driver prints "Error: <message>",
    makes no further lookup, and finishes normally, so the exit status is
    0 exactly as on a successful run. *)
Theorem both_error_kinds_are_reported (id : string) (w : World) (e : exn) :
  fst (get_ip_from_tiktok_username id w) = Raised e ->
  exn_cls e = ValueError \/ exn_cls e = GaiError ->
  driver id w
    = (Returned tt,
       printed ("Error: " ++ exn_str e)
         (snd (get_ip_from_tiktok_username id w)))
  /\ lookups (snd (driver id w))
       = lookups (snd (get_ip_from_tiktok_username id w))
  /\ exit_status (fst (driver id w)) = 0%Z
  /\ (forall w' address,
        fst (get_ip_from_tiktok_username id w') = Returned address ->
        exit_status (fst (driver id w')) = 0%Z).
Proof.
  intros Hraised Hkind.
  assert (Hmatch : matches e [ValueError; GaiError] = true).
  { rewrite matches_driver.
    destruct Hkind as [-> | ->]; reflexivity. }
  assert (Hrun : driver id w
            = (Returned tt,
               printed ("Error: " ++ exn_str e)
                 (snd (get_ip_from_tiktok_username id w)))).
  { rewrite run_driver.
    destruct (get_ip_from_tiktok_username id w) as [o w1].
    cbn [fst snd] in *. subst o. now rewrite Hmatch. }
  split; [ exact Hrun | ]. rewrite Hrun.
  split; [ reflexivity | ]. split; [ reflexivity | ].
  intros w' address Hok. rewrite run_driver.
  destruct (get_ip_from_tiktok_username id w') as [o w1].
  cbn [fst] in Hok. subst o. reflexivity.
Qed.

Lemma both_error_kinds_are_reported_witness :
  driver "" no_such_host
    = (Returned tt,
       printed ("Error: " ++ exn_str invalid_input_error)
         (snd (get_ip_from_tiktok_username "" no_such_host)))
  /\ lookups (snd (driver "" no_such_host))
       = lookups (snd (get_ip_from_tiktok_username "" no_such_host))
  /\ exit_status (fst (driver "" no_such_host)) = 0%Z
  /\ (forall w' address,
        fst (get_ip_from_tiktok_username "" w') = Returned address ->
        exit_status (fst (driver "" w')) = 0%Z).
Proof.
  exact (both_error_kinds_are_reported "" no_such_host invalid_input_error
           eq_refl (or_introl eq_refl)).
Defined.

(** C7, as the specification words it, fails: not every failure of the
    lookup made for "80alaajutt" ends in the "Error getting IP address"
    line.  When the resolver fails with a plain [OSError], the script
    prints nothing at all. *)
Lemma failed_lookup_without_report :
  resolver resolver_system_error "https://www.tiktok.com/@80alaajutt"
    = Failed OSError (Some 24%Z) "[Errno 24] Too many open files"
  /\ stdout (snd (run_script resolver_system_error))
       = stdout resolver_system_error
  /\ stdout (snd (run_script resolver_system_error))
       <> stdout resolver_system_error
            ++ ("Error: Error getting IP address for 80alaajutt: "
                  ++ "[Errno 24] Too many open files")
            ++ newline.
Proof.
  split; [ reflexivity | ]. split; [ reflexivity | ]. discriminate.
Qed.

(** C7, amended.  The script supplies the one literal identifier
    "80alaajutt"; when the lookup made for it fails with a resolution
    error ([socket.gaierror]), what the script prints is exactly
    "Error: Error getting IP address for 80alaajutt: <underlying cause>". *)
Theorem script_reports_failed_lookup
    (w : World) (errno : option Z) (cause : string) :
  resolver w "https://www.tiktok.com/@80alaajutt"
    = Failed GaiError errno cause ->
  tiktok_username = "80alaajutt"
  /\ lookups (snd (run_script w))
       = (lookups w ++ ["https://www.tiktok.com/@80alaajutt"])%list
  /\ stdout (snd (run_script w))
       = stdout w
           ++ ("Error: Error getting IP address for 80alaajutt: " ++ cause)
           ++ newline.
Proof.
  intro Hfail.
  assert (Hne : tiktok_username <> "") by discriminate.
  assert (Hrun : get_ip_from_tiktok_username tiktok_username w
            = (Raised (resolution_error tiktok_username cause),
               looked_up (profile_url tiktok_username) w)).
  { rewrite (run_nonempty _ w Hne).
    change (profile_url tiktok_username)
      with "https://www.tiktok.com/@80alaajutt".
    now rewrite Hfail. }
  unfold run_script. rewrite run_driver, Hrun.
  repeat split.
Qed.

Lemma script_reports_failed_lookup_witness :
  tiktok_username = "80alaajutt"
  /\ lookups (snd (run_script no_such_host))
       = ["https://www.tiktok.com/@80alaajutt"]
  /\ stdout (snd (run_script no_such_host))
       = "Error: Error getting IP address for 80alaajutt: [Errno -2] Name or service not known"
           ++ newline.
Proof.
  exact (script_reports_failed_lookup no_such_host _ _ eq_refl).
Defined.

(** ** The guard never fires on a non-empty identifier *)

(** An exception that leaves the function on a non-empty identifier was
    raised by the resolver or by the wrapping handler. *)
Lemma raised_after_guard (username : string) (w : World) (e : exn) :
  username <> "" ->
  fst (get_ip_from_tiktok_username username w) = Raised e ->
  exn_site e = Line31 \/ exn_site e = InGethostbyname.
Proof.
  intros Hne. rewrite (run_nonempty _ w Hne).
  destruct (resolver w _) as [address | c errno text];
    [ discriminate | ].
  destruct (issubclass c GaiError); cbn [fst];
    intro H; injection H as <-; [ left | right ]; reflexivity.
Qed.

(** C8.  Every non-empty identifier, whatever its characters and length,
    passes the validator ([not username] is false), and the function never
    raises the invalid-input error on it: no exception that leaves the
    function comes from the guard's [raise] statement. *)
Theorem nonempty_identifier_passes_guard (username : string) (w : World) :
  username <> "" ->
  py_not username = false
  /\ fst (get_ip_from_tiktok_username username w) <> Raised invalid_input_error
  /\ (forall e,
        fst (get_ip_from_tiktok_username username w) = Raised e ->
        exn_site e <> Line24).
Proof.
  intro Hne.
  assert (Hsite : forall e,
            fst (get_ip_from_tiktok_username username w) = Raised e ->
            exn_site e <> Line24).
  { intros e He Hsite.
    destruct (raised_after_guard _ w _ Hne He) as [H | H];
      rewrite Hsite in H; discriminate H. }
  split; [ now apply py_not_false | ].
  split; [ | exact Hsite ].
  intro H. now apply (Hsite _ H).
Qed.

Lemma nonempty_identifier_passes_guard_witness :
  py_not "tik..tok" = false
  /\ fst (get_ip_from_tiktok_username "tik..tok" idna_rejects)
       <> Raised invalid_input_error
  /\ (forall e,
        fst (get_ip_from_tiktok_username "tik..tok" idna_rejects) = Raised e ->
        exn_site e <> Line24).
Proof.
  exact (nonempty_identifier_passes_guard "tik..tok" idna_rejects
           ltac:(discriminate)).
Defined.

(** ** The kind of the wrapped error *)

(** C9, as the specification words it, fails: the message text is not
    the only thing that tells the wrapped error from the resolver's own.
    The resolver's error carries an [errno]; the wrapped one, built from a
    single message, has none. *)
Lemma wrapped_error_differs_in_errno :
  let raw := mk_exn GaiError (Some (-2)%Z)
               "[Errno -2] Name or service not known" InGethostbyname in
  resolver no_such_host "https://www.tiktok.com/@80alaajutt"
    = Failed GaiError (exn_errno raw) (exn_str raw)
  /\ exists e,
       fst (get_ip_from_tiktok_username "80alaajutt" no_such_host) = Raised e
       /\ exn_errno raw = Some (-2)%Z
       /\ exn_errno e = None
       /\ exn_errno e <> exn_errno raw.
Proof.
  cbv zeta. split; [ reflexivity | ].
  eexists. split; [ reflexivity | ].
  split; [ reflexivity | ]. split; [ reflexivity | ]. discriminate.
Qed.

(** C9, amended.  The error the handler raises has the class of the
    resolver failure it replaces, [socket.gaierror], so that no
    [isinstance] test tells it from the resolver's own error.  It is
    constructed from the formatted message alone: its message text differs
    from the resolver's, and its [errno] is [None], which differs from the
    resolver's whenever that one carries an [errno]. *)
Theorem wrapped_error_keeps_kind
    (username : string) (w : World) (errno : option Z) (cause : string) :
  username <> "" ->
  resolver w ("https://www.tiktok.com/@" ++ username)
    = Failed GaiError errno cause ->
  let raw := mk_exn GaiError errno cause InGethostbyname in
  exists e,
    fst (get_ip_from_tiktok_username username w) = Raised e
    /\ exn_cls e = GaiError
    /\ exn_cls e = exn_cls raw
    /\ exn_errno e = None
    /\ exn_str e = "Error getting IP address for " ++ username ++ ": " ++ cause
    /\ (forall c, isinstance e c = isinstance raw c)
    /\ exn_str e <> exn_str raw
    /\ (forall n, errno = Some n -> exn_errno e <> exn_errno raw).
Proof.
  intros Hne Hfail raw.
  exists (resolution_error username cause).
  rewrite (run_nonempty _ w Hne). unfold profile_url. rewrite Hfail.
  rewrite issubclass_refl. cbn [fst].
  unfold resolution_error, new_exn, raw. cbn [exn_cls exn_errno exn_str].
  repeat split.
  - rewrite <- !append_assoc.
    apply prefixed_differs. discriminate.
  - intros n ->. discriminate.
Qed.

Lemma wrapped_error_keeps_kind_witness :
  exists e,
    fst (get_ip_from_tiktok_username "80alaajutt" no_such_host) = Raised e
    /\ exn_cls e = GaiError
    /\ exn_cls e = GaiError
    /\ exn_errno e = None
    /\ exn_str e = "Error getting IP address for 80alaajutt: [Errno -2] Name or service not known"
    /\ (forall c,
          isinstance e c
          = isinstance
              (mk_exn GaiError (Some (-2)%Z)
                 "[Errno -2] Name or service not known" InGethostbyname) c)
    /\ exn_str e <> "[Errno -2] Name or service not known"
    /\ (forall n, Some (-2)%Z = Some n -> exn_errno e <> Some (-2)%Z).
Proof.
  exact (wrapped_error_keeps_kind "80alaajutt" no_such_host _ _
           ltac:(discriminate) eq_refl).
Defined.

(** ** Determinism *)

(** C10.  The function's result is a function of the identifier and of
    the resolver's answer for the constructed string: two runs that agree
    on these return the same address or raise the same error, whatever
    else differs between the two worlds. *)
Theorem result_determined_by_answer (username : string) (w1 w2 : World) :
  resolver w1 ("https://www.tiktok.com/@" ++ username)
    = resolver w2 ("https://www.tiktok.com/@" ++ username) ->
  fst (get_ip_from_tiktok_username username w1)
    = fst (get_ip_from_tiktok_username username w2).
Proof.
  intro Hsame.
  destruct (py_not username) eqn:E.
  - apply py_not_true in E. now rewrite (run_empty _ w1 E), (run_empty _ w2 E).
  - apply py_not_false in E.
    rewrite (run_nonempty _ w1 E), (run_nonempty _ w2 E).
    unfold profile_url. rewrite <- Hsame.
    destruct (resolver w1 _) as [address | c errno text];
      [ | destruct (issubclass c GaiError) ]; reflexivity.
Qed.

Lemma result_determined_by_answer_witness :
  fst (get_ip_from_tiktok_username "80alaajutt" no_such_host)
    = fst (get_ip_from_tiktok_username "80alaajutt" no_such_host_later).
Proof.
  exact (result_determined_by_answer "80alaajutt"
           no_such_host no_such_host_later eq_refl).
Defined.

(** ** The driver, case by case *)

Section Cancellation.

Lemma append_cancel_l (p s t : string) : p ++ s = p ++ t -> s = t.
Proof.
  induction p as [|c p IH]; simpl; intro H; [ exact H | ].
  injection H as H. now apply IH.
Qed.

End Cancellation.

Section DriverRuns.

Variable id : string.
Variable w : World.

(** After the function ran on a non-empty identifier the world is the
    old one with one more lookup, whatever the resolver answered. *)
Lemma world_after_lookup :
  id <> "" ->
  snd (get_ip_from_tiktok_username id w) = looked_up (profile_url id) w.
Proof.
  intro Hne. rewrite (run_nonempty _ w Hne).
  destruct (resolver w _) as [a | c n t];
    [ | destruct (issubclass c GaiError) ]; reflexivity.
Qed.

(** A class below [socket.gaierror] is not below [ValueError]. *)
Lemma gaierror_not_valueerror (c : exn_class) :
  issubclass c GaiError = true -> issubclass c ValueError = false.
Proof. destruct c; simpl; intro H; solve [ reflexivity | discriminate H ]. Qed.

(** The module-level [try] on a non-empty identifier, read off the
    resolver's answer. *)
Lemma run_driver_nonempty :
  id <> "" ->
  driver id w =
    match resolver w (profile_url id) with
    | Resolved address =>
        (Returned tt,
         printed ("The IP address for TikTok username '" ++ id
                    ++ "' is: " ++ address)
           (looked_up (profile_url id) w))
    | Failed c n t =>
        if issubclass c GaiError then
          (Returned tt,
           printed ("Error: " ++ "Error getting IP address for " ++ id
                      ++ ": " ++ t)
             (looked_up (profile_url id) w))
        else if issubclass c ValueError then
          (Returned tt,
           printed ("Error: " ++ t) (looked_up (profile_url id) w))
        else
          (Raised (mk_exn c n t InGethostbyname),
           looked_up (profile_url id) w)
    end.
Proof.
  intro Hne. rewrite run_driver, (run_nonempty _ w Hne).
  destruct (resolver w _) as [address | c n t]; [ reflexivity | ].
  destruct (issubclass c GaiError) eqn:Eg.
  - reflexivity.
  - rewrite matches_driver. cbn [exn_cls]. rewrite Eg, orb_false_r.
    destruct (issubclass c ValueError); reflexivity.
Qed.

End DriverRuns.

Section ClassFacts.

(** A class below [ValueError] is not below [socket.gaierror]: the inner
    handler leaves such an exception alone. *)
Lemma valueerror_not_gaierror (c : exn_class) :
  issubclass c ValueError = true -> issubclass c GaiError = false.
Proof. destruct c; simpl; intro H; solve [ reflexivity | discriminate H ]. Qed.

Lemma reported_class_split (c : exn_class) :
  reported_class c = false ->
  issubclass c GaiError = false /\ issubclass c ValueError = false.
Proof.
  unfold reported_class. intro H. apply orb_false_iff in H. tauto.
Qed.

End ClassFacts.

(** ** Further properties of the script *)

(** X1.  The success path, end to end: for a non-empty identifier whose
    URL the resolver answers with an address, the driver makes that one
    lookup, prints "The IP address for TikTok username '<id>' is:
    <address>" with the address as the resolver gave it, and finishes
    normally. *)
Theorem resolved_address_is_printed
    (id : string) (w : World) (address : string) :
  id <> "" ->
  resolver w ("https://www.tiktok.com/@" ++ id) = Resolved address ->
  fst (driver id w) = Returned tt
  /\ stdout (snd (driver id w))
       = stdout w
           ++ ("The IP address for TikTok username '" ++ id ++ "' is: "
                 ++ address)
           ++ newline
  /\ lookups (snd (driver id w))
       = (lookups w ++ [("https://www.tiktok.com/@" ++ id)%string])%list.
Proof.
  intros Hne Hok. rewrite (run_driver_nonempty _ w Hne).
  unfold profile_url. rewrite Hok. repeat split.
Qed.

Lemma resolved_address_is_printed_witness :
  fst (driver "80alaajutt" wildcard_dns) = Returned tt
  /\ stdout (snd (driver "80alaajutt" wildcard_dns))
       = "The IP address for TikTok username '80alaajutt' is: 203.0.113.7"
           ++ newline
  /\ lookups (snd (driver "80alaajutt" wildcard_dns))
       = ["https://www.tiktok.com/@80alaajutt"].
Proof.
  exact (resolved_address_is_printed "80alaajutt" wildcard_dns "203.0.113.7"
           ltac:(discriminate) eq_refl).
Defined.

(** X2.  A resolver failure whose class is [ValueError] or a subclass of
    it (such as [UnicodeError]) is not wrapped by the function, since its
    handler names [socket.gaierror] only, but it is caught by the driver:
    the printed line is "Error: <text of the resolver's error>", without
    the "Error getting IP address for" part and without the identifier. *)
Theorem value_error_from_resolver_is_printed_bare
    (id : string) (w : World) (c : exn_class) (errno : option Z)
    (text : string) :
  id <> "" ->
  resolver w ("https://www.tiktok.com/@" ++ id) = Failed c errno text ->
  issubclass c ValueError = true ->
  fst (get_ip_from_tiktok_username id w)
    = Raised (mk_exn c errno text InGethostbyname)
  /\ fst (driver id w) = Returned tt
  /\ stdout (snd (driver id w)) = stdout w ++ ("Error: " ++ text) ++ newline.
Proof.
  intros Hne Hfail Hval.
  pose proof (valueerror_not_gaierror c Hval) as Hgai.
  rewrite (run_driver_nonempty _ w Hne), (run_nonempty _ w Hne).
  unfold profile_url. rewrite Hfail, Hgai, Hval. repeat split.
Qed.

Lemma value_error_from_resolver_is_printed_bare_witness :
  fst (get_ip_from_tiktok_username "tik..tok" idna_rejects)
    = Raised (mk_exn UnicodeError None
                "encoding with 'idna' codec failed (UnicodeError: label empty or too long)"
                InGethostbyname)
  /\ fst (driver "tik..tok" idna_rejects) = Returned tt
  /\ stdout (snd (driver "tik..tok" idna_rejects))
       = "Error: encoding with 'idna' codec failed (UnicodeError: label empty or too long)"
           ++ newline.
Proof.
  exact (value_error_from_resolver_is_printed_bare "tik..tok" idna_rejects
           UnicodeError None _ ltac:(discriminate) eq_refl eq_refl).
Defined.

(** X3.  A resolver failure whose class is neither under [ValueError]
    nor under [socket.gaierror] passes both handlers: the driver ends with
    that very exception (class, errno and text as the resolver raised it),
    having made its one lookup and printed nothing. *)
Theorem other_error_leaves_the_script
    (id : string) (w : World) (c : exn_class) (errno : option Z)
    (text : string) :
  id <> "" ->
  resolver w ("https://www.tiktok.com/@" ++ id) = Failed c errno text ->
  reported_class c = false ->
  fst (driver id w) = Raised (mk_exn c errno text InGethostbyname)
  /\ stdout (snd (driver id w)) = stdout w
  /\ lookups (snd (driver id w))
       = (lookups w ++ [("https://www.tiktok.com/@" ++ id)%string])%list
  /\ exit_status (fst (driver id w)) = 1%Z.
Proof.
  intros Hne Hfail Hrep.
  destruct (reported_class_split c Hrep) as [Hgai Hval].
  rewrite (run_driver_nonempty _ w Hne).
  unfold profile_url. rewrite Hfail, Hgai, Hval. repeat split.
Qed.

Lemma other_error_leaves_the_script_witness :
  fst (driver "80alaajutt" resolver_system_error)
    = Raised (mk_exn OSError (Some 24%Z) "[Errno 24] Too many open files"
                InGethostbyname)
  /\ stdout (snd (driver "80alaajutt" resolver_system_error)) = ""
  /\ lookups (snd (driver "80alaajutt" resolver_system_error))
       = ["https://www.tiktok.com/@80alaajutt"]
  /\ exit_status (fst (driver "80alaajutt" resolver_system_error)) = 1%Z.
Proof.
  exact (other_error_leaves_the_script "80alaajutt" resolver_system_error
           OSError _ _ ltac:(discriminate) eq_refl eq_refl).
Defined.

(** X4.  Whether the driver finishes normally is decided by the
    identifier and the resolver's answer: the module-level [try] completes
    exactly when the identifier is empty or the answer is an address or a
    failure under [ValueError] or [socket.gaierror]; an exception leaves
    it exactly in the remaining case. *)
Theorem driver_finishes_by_answer (id : string) (w : World) :
  (fst (driver id w) = Returned tt
   <-> id = ""
       \/ answer_reported (resolver w ("https://www.tiktok.com/@" ++ id))
          = true)
  /\ ((exists e, fst (driver id w) = Raised e)
      <-> id <> ""
          /\ answer_reported (resolver w ("https://www.tiktok.com/@" ++ id))
             = false).
Proof.
  destruct (py_not id) eqn:E.
  - apply py_not_true in E. subst id. cbn [driver].
    split; split; intro H.
    + now left.
    + reflexivity.
    + destruct H as [e H]. discriminate H.
    + now destruct H as [H _].
  - apply py_not_false in E.
    rewrite (run_driver_nonempty _ w E). unfold profile_url.
    destruct (resolver w _) as [address | c n t]; cbn [answer_reported].
    + split; split; intro H;
        solve [ now right | reflexivity
              | destruct H as [e H]; discriminate H
              | apply proj2 in H; discriminate H ].
    + unfold reported_class.
      destruct (issubclass c GaiError) eqn:Eg;
        [ rewrite (gaierror_not_valueerror c Eg)
        | destruct (issubclass c ValueError) eqn:Ev ];
        cbn [fst orb];
        (split; split; intro H;
         solve [ now right | reflexivity | discriminate H
               | destruct H as [e H]; discriminate H
               | apply proj2 in H; discriminate H
               | destruct H as [H | H];
                   [ exfalso; apply E; exact H | discriminate H ]
               | now split
               | eexists; reflexivity ]).
Qed.

(** X5.  Whatever the identifier and the resolver's answer, a run of the
    driver leaves the resolver as it was, keeps what was looked up and
    printed before, adds at most one lookup (of the constructed URL), and
    appends to standard output either nothing or exactly the report text
    for the function's outcome followed by one newline; when that text
    holds no line break, the output grows by at most one line. *)
Theorem driver_only_appends (id : string) (w : World) :
  resolver (snd (driver id w)) = resolver w
  /\ (lookups (snd (driver id w)) = lookups w
      \/ lookups (snd (driver id w))
           = (lookups w ++ [("https://www.tiktok.com/@" ++ id)%string])%list)
  /\ (stdout (snd (driver id w)) = stdout w
      \/ stdout (snd (driver id w))
           = stdout w
               ++ report_line id (fst (get_ip_from_tiktok_username id w))
               ++ newline)
  /\ (line_breaks (report_line id (fst (get_ip_from_tiktok_username id w)))
        = 0 ->
      line_breaks (stdout (snd (driver id w))) <= line_breaks (stdout w) + 1).
Proof.
  destruct (py_not id) eqn:E.
  - apply py_not_true in E. subst id.
    split; [ reflexivity | ]. split; [ now left | ].
    split; [ now right | ].
    intros _. cbn [driver get_ip_from_tiktok_username]. cbn [fst snd].
    change (line_breaks
              (stdout w ++ "Error: Invalid TikTok username provided."
                 ++ newline) <= line_breaks (stdout w) + 1).
    rewrite line_breaks_app. cbn. lia.
  - apply py_not_false in E.
    rewrite (run_driver_nonempty _ w E), (run_nonempty _ w E).
    unfold profile_url.
    destruct (resolver w _) as [address | c n t];
      [ | destruct (issubclass c GaiError);
          [ | destruct (issubclass c ValueError) ] ];
      cbn [fst snd printed looked_up stdout lookups resolver report_line
           exn_str resolution_error new_exn];
      (split; [ reflexivity | ]; split; [ now right | ]; split;
       [ solve [ now left | now right ] | ]);
      intro Hline;
      solve [ lia
            | rewrite line_breaks_app, (one_line_written _ Hline); lia ].
Qed.

(** X6.  Distinct identifiers are looked up under distinct names: the
    URL the function builds determines the identifier. *)
Theorem distinct_identifiers_distinct_lookups (id1 id2 : string) (w : World) :
  id1 <> "" -> id2 <> "" -> id1 <> id2 ->
  lookups (snd (get_ip_from_tiktok_username id1 w))
    <> lookups (snd (get_ip_from_tiktok_username id2 w)).
Proof.
  intros H1 H2 Hdiff Heq.
  rewrite (world_after_lookup _ w H1), (world_after_lookup _ w H2) in Heq.
  cbn [looked_up lookups] in Heq.
  apply app_inj_tail in Heq. destruct Heq as [_ Heq].
  apply append_cancel_l in Heq. now apply Hdiff.
Qed.

Lemma distinct_identifiers_distinct_lookups_witness :
  lookups (snd (get_ip_from_tiktok_username "alice" no_such_host))
    <> lookups (snd (get_ip_from_tiktok_username "bob" no_such_host)).
Proof.
  exact (distinct_identifiers_distinct_lookups "alice" "bob" no_such_host
           ltac:(discriminate) ltac:(discriminate) ltac:(discriminate)).
Defined.

(** X7.  Nothing is cached between calls: calling the function a second
    time on the same non-empty identifier asks the resolver again, so the
    log holds the URL twice, and still nothing is printed. *)
Theorem second_call_looks_up_again (id : string) (w : World) :
  id <> "" ->
  let w1 := snd (get_ip_from_tiktok_username id w) in
  let w2 := snd (get_ip_from_tiktok_username id w1) in
  lookups w2
    = (lookups w ++ [("https://www.tiktok.com/@" ++ id)%string;
                     ("https://www.tiktok.com/@" ++ id)%string])%list
  /\ stdout w2 = stdout w.
Proof.
  intros Hne w1 w2. subst w1 w2.
  rewrite (world_after_lookup _ _ Hne), (world_after_lookup _ w Hne).
  cbn [looked_up lookups stdout]. unfold profile_url.
  split; [ now rewrite <- app_assoc | reflexivity ].
Qed.

Lemma second_call_looks_up_again_witness :
  let w1 := snd (get_ip_from_tiktok_username "80alaajutt" no_such_host) in
  let w2 := snd (get_ip_from_tiktok_username "80alaajutt" w1) in
  lookups w2
    = ["https://www.tiktok.com/@80alaajutt";
       "https://www.tiktok.com/@80alaajutt"]
  /\ stdout w2 = "".
Proof.
  exact (second_call_looks_up_again "80alaajutt" no_such_host
           ltac:(discriminate)).
Defined.

(** X8.  The message of the wrapped error determines the text of the
    underlying [socket.gaierror]: for one non-empty identifier, two such
    resolver failures lead to wrapped errors with the same message exactly
    when the texts of the two failures agree. *)
Theorem wrapped_message_determines_cause
    (id : string) (w1 w2 : World) (n1 n2 : option Z) (t1 t2 : string) :
  id <> "" ->
  resolver w1 ("https://www.tiktok.com/@" ++ id) = Failed GaiError n1 t1 ->
  resolver w2 ("https://www.tiktok.com/@" ++ id) = Failed GaiError n2 t2 ->
  exists e1 e2,
    fst (get_ip_from_tiktok_username id w1) = Raised e1
    /\ fst (get_ip_from_tiktok_username id w2) = Raised e2
    /\ (exn_str e1 = exn_str e2 <-> t1 = t2).
Proof.
  intros Hne H1 H2.
  exists (resolution_error id t1), (resolution_error id t2).
  rewrite (run_nonempty _ w1 Hne), (run_nonempty _ w2 Hne).
  unfold profile_url. rewrite H1, H2, issubclass_refl. cbn [fst].
  split; [ reflexivity | ]. split; [ reflexivity | ].
  unfold resolution_error, new_exn. cbn [exn_str]. split.
  - intro H. apply append_cancel_l in H. apply append_cancel_l in H.
    now injection H.
  - now intros ->.
Qed.

Lemma wrapped_message_determines_cause_witness :
  exists e1 e2,
    fst (get_ip_from_tiktok_username "80alaajutt" no_such_host) = Raised e1
    /\ fst (get_ip_from_tiktok_username "80alaajutt" temporary_failure)
         = Raised e2
    /\ (exn_str e1 = exn_str e2
        <-> "[Errno -2] Name or service not known"
            = "[Errno -3] Temporary failure in name resolution").
Proof.
  exact (wrapped_message_determines_cause "80alaajutt"
           no_such_host temporary_failure _ _ _ _
           ltac:(discriminate) eq_refl eq_refl).
Defined.

(** X9.  The function itself never prints and never touches the
    resolver: on every identifier and in every world, standard output and
    the resolver are after the call what they were before, and the lookup
    log has lost no entry. *)
Theorem function_is_silent (username : string) (w : World) :
  stdout (snd (get_ip_from_tiktok_username username w)) = stdout w
  /\ resolver (snd (get_ip_from_tiktok_username username w)) = resolver w
  /\ exists added,
       lookups (snd (get_ip_from_tiktok_username username w))
         = (lookups w ++ added)%list
       /\ (length added <= 1)%nat.
Proof.
  destruct (py_not username) eqn:E.
  - apply py_not_true in E. rewrite (run_empty _ w E).
    repeat split. exists []. split; [ now rewrite app_nil_r | auto ].
  - apply py_not_false in E. rewrite (world_after_lookup _ w E).
    repeat split. now exists [profile_url username].
Qed.
